(** * A shallow embedding of the certificate searcher of giantswarm/certificates

    Sources: [k8s.go] (the label catalog) and [pkg/certs/searcher.go]
    (the [Searcher]: constructor, single-kind watch search, secret
    validation and the bundle searches).

    Go strings are [string]; Go maps with string keys are stdpp [gmap]s;
    [[]byte] is [list Byte.byte]; a [time.Duration] is a [Z] count of
    nanoseconds. *)

From Stdlib Require Import String Ascii ZArith List Lia.
From stdpp Require Import base gmap strings list.

Import ListNotations.
Open Scope string_scope.

(* ================================================================== *)
(** ** k8s.go: the label catalog *)

Definition certificateLabel : string := "giantswarm.io/certificate".
Definition clusterIDLabel : string := "giantswarm.io/cluster-id".
Definition legacyCertificateLabel : string := "clusterComponent".
Definition legacyClusterIDLabel : string := "clusterID".
Definition SecretNamespace : string := "default".

(** [type Cert string]: a certificate name is a Go string. *)
Abbreviation Cert := string (only parsing).

Definition APICert : Cert := "api".
Definition CalicoCert : Cert := "calico".
Definition CalicoEtcdClientCert : Cert := "calico-etcd-client".
Definition ClusterOperatorAPICert : Cert := "cluster-operator-api".
Definition EtcdCert : Cert := "etcd".
Definition FlanneldEtcdClientCert : Cert := "flanneld-etcd-client".
Definition NodeOperatorCert : Cert := "node-operator".
Definition PrometheusCert : Cert := "prometheus".
Definition ServiceAccountCert : Cert := "service-account".
Definition WorkerCert : Cert := "worker".

Definition AllCerts : list Cert :=
  [APICert; CalicoCert; CalicoEtcdClientCert; ClusterOperatorAPICert;
   EtcdCert; FlanneldEtcdClientCert; NodeOperatorCert; PrometheusCert;
   ServiceAccountCert; WorkerCert].

(** Modelled from the spec: the constant [clusterLabel], used by
    [search] and [fillTLSFromSecret], is declared in a file of this
    repository that is not under src/.  The spec calls it the cluster-ID
    label of the current label scheme, which [k8s.go] names
    [clusterIDLabel]. *)
Definition clusterLabel : string := clusterIDLabel.

(** Modelled from the spec: the constant [AppOperatorAPICert], used by
    [SearchAppOperator], is declared in a file of this repository that is
    not under src/; the spec names it only as the app operator's
    API-server certificate kind. *)
Definition AppOperatorAPICert : Cert := "app-operator-api".

(** [fmt.Sprintf("%s-%s", clusterID, certificate)]. *)
Definition K8sSecretName (clusterID : string) (certificate : Cert) : string :=
  clusterID ++ "-" ++ certificate.

(** The map literal of [K8sSecretLabels]: four distinct constant keys. *)
Definition K8sSecretLabels (clusterID : string) (certificate : Cert)
  : gmap string string :=
  <[certificateLabel := certificate]>
  (<[clusterIDLabel := clusterID]>
  (<[legacyCertificateLabel := certificate]>
  (<[legacyClusterIDLabel := clusterID]> ∅))).

(* ================================================================== *)
(** ** Errors: [microerror] kinds and masked errors *)

(** The error kinds named in searcher.go.  [BackendError] stands for an
    error returned by the store client itself (the failed [Watch] call),
    which [search] passes on after [microerror.Mask]. *)
Inductive ErrorKind :=
| invalidConfigError
| executionFailedError
| wrongTypeError
| timeoutError
| invalidSecretError
| BackendError.

Definition ErrorKind_eq_dec (a b : ErrorKind) : {a = b} + {a <> b}.
Proof. decide equality. Defined.

(** [microerror.Maskf(kind, format, args...)]: the kind, the format string
    and its string arguments.  [microerror.Mask] only adds a stack frame,
    so it is the identity here. *)
Record Error := Maskf { kind : ErrorKind; format : string; args : list string }.

Definition Mask (e : Error) : Error := e.

(* ================================================================== *)
(** ** searcher.go: configuration and constructor *)

(** [DefaultWatchTimeout = 3 * time.Second], in nanoseconds. *)
Definition Second : Z := 1000000000.
Definition DefaultWatchTimeout : Z := 3 * Second.

(* ================================================================== *)
(** ** The secret store, as [search] consumes it *)

(** [corev1.Secret]: labels and data. *)
Record Secret := {
  Labels : gmap string string;
  Data : gmap string (list Byte.byte)
}.

(** [watch.EventType]. *)
Inductive EventType := Added | Modified | Deleted | Bookmark | ErrorEvent.

(** [event.Object] ([runtime.Object]): a non-nil [*corev1.Secret], a nil
    [*corev1.Secret], or some other object such as a [metav1.Status]
    carrying an API error message. *)
Inductive Object :=
| OSecret (s : Secret)
| ONilSecret
| OStatus (msg : string).

(** [watch.Event]; its [Type] field is [EType] here ([Type] is a keyword). *)
Record Event := { EType : EventType; Obj : Object }.

(** What a receive on [watcher.ResultChan()] yields: an event, or the
    channel being closed ([ok = false]). *)
Inductive Item := Ev (e : Event) | Closed.

(** A watch stream: the items in channel order, each with the time (in
    nanoseconds) it becomes available after the previous receive; the
    first gap counts from the start of the loop.  After the last item the
    channel stays open and silent. *)
Definition WatchStream := list (Z * Item).

(** [metav1.ListOptions], reduced to the field the code sets. *)
Record ListOptions := { LabelSelector : string }.

(** The store client interface used by [search]:
    [k8sClient.CoreV1().Secrets(namespace).Watch(ctx, options)]. *)
Class SecretsWatcher (C : Type) :=
  Watch : C -> string -> ListOptions -> WatchStream + Error.

(** [%T] of an object. *)
Definition type_name (o : Object) : string :=
  match o with
  | OSecret _ | ONilSecret => "*v1.Secret"
  | OStatus _ => "*v1.Status"
  end.

(** [apierrors.FromObject(event.Object)], as the text the error prints. *)
Definition from_object (o : Object) : string :=
  match o with
  | OStatus msg => msg
  | _ => "unexpected object: " ++ type_name o
  end.

(** The store client and the logger are Go interfaces; [None] is the nil
    interface. *)
Section Searcher.

Context {Client Logger : Type}.

Record Config := {
  cfgK8sClient : option Client;
  cfgLogger : option Logger;
  cfgWatchTimeout : Z
}.

Record Searcher := {
  k8sClient : Client;
  logger : Logger;
  watchTimeout : Z
}.

Definition NewSearcher (config : Config) : option Searcher * option Error :=
  match cfgK8sClient config with
  | None => (None, Some (Maskf invalidConfigError "%T.K8sClient must not be empty" ["Config"]))
  | Some c =>
    match cfgLogger config with
    | None => (None, Some (Maskf invalidConfigError "%T.Logger must not be empty" ["Config"]))
    | Some l =>
      let wt := if Z.eqb (cfgWatchTimeout config) 0 then DefaultWatchTimeout
                else cfgWatchTimeout config in
      (Some {| k8sClient := c; logger := l; watchTimeout := wt |}, None)
    end
  end.

End Searcher.

Arguments Config : clear implicits.
Arguments Searcher : clear implicits.

(* ================================================================== *)
(** ** searcher.go: the watch loop of [search] *)

(** One iteration of [for { select { ... } }] starts a fresh
    [time.After(s.watchTimeout)] and waits for the first ready case.  An
    item that becomes available [g] ns after the iteration started wins
    when [g < d]; when [g = d] both cases are ready and Go's [select]
    picks one at random, which the scheduler oracle [sel] decides for the
    [i]-th iteration. *)
Definition event_wins (sel : nat -> bool) (d : Z) (i : nat) (g : Z) : bool :=
  Z.ltb g d || (Z.eqb g d && sel i).

Fixpoint watch_loop (sel : nat -> bool) (d : Z) (i : nat) (selector : string)
    (evs : WatchStream) : Secret + Error :=
  match evs with
  | [] => inr (Maskf timeoutError "waiting secrets, selector = %q" [selector])
  | (g, it) :: rest =>
    if event_wins sel d i g then
      match it with
      | Closed =>
        inr (Maskf executionFailedError
               "watching secrets, selector = %q: unexpected closed channel" [selector])
      | Ev ev =>
        match EType ev with
        | Added =>
          match Obj ev with
          | OSecret secret => inl secret
          | o => inr (Maskf wrongTypeError "expected '%T', got '%T'"
                             ["*v1.Secret"; type_name o])
          end
        | Deleted =>
          (* Noop. Ignore deleted events. *)
          watch_loop sel d (S i) selector rest
        | ErrorEvent =>
          inr (Maskf executionFailedError "watching secrets, selector = %q: %v"
                 [selector; from_object (Obj ev)])
        | Modified | Bookmark =>
          (* no case of the switch matches *)
          watch_loop sel d (S i) selector rest
        end
      end
    else inr (Maskf timeoutError "waiting secrets, selector = %q" [selector])
  end.

(* ================================================================== *)
(** ** searcher.go: [TLS], [search], [fillTLSFromSecret], [SearchTLS] *)

(** [TLS]: the decoded material of one certificate. *)
Record TLS := { CA : list Byte.byte; Crt : list Byte.byte; Key : list Byte.byte }.

(** The zero value [TLS{}] (nil slices). *)
Definition TLS_zero : TLS := {| CA := []; Crt := []; Key := [] |}.

Definition set_CA (t : TLS) (v : list Byte.byte) : TLS :=
  {| CA := v; Crt := Crt t; Key := Key t |}.
Definition set_Crt (t : TLS) (v : list Byte.byte) : TLS :=
  {| CA := CA t; Crt := v; Key := Key t |}.
Definition set_Key (t : TLS) (v : list Byte.byte) : TLS :=
  {| CA := CA t; Crt := Crt t; Key := v |}.

(** Go's [m[k]] on a [map[string]string]: the empty string when absent. *)
Definition go_index (m : gmap string string) (k : string) : string :=
  default "" (m !! k).

(** Go's [v, ok = m[k]] on a [map[string][]byte]: nil when absent. *)
Definition go_index_ok (m : gmap string (list Byte.byte)) (k : string)
  : list Byte.byte * bool :=
  match m !! k with
  | Some v => (v, true)
  | None => ([], false)
  end.

(** [fillTLSFromSecret(tls, secret, cluster, cert)]: [tls] is mutated
    through its pointer, so the function returns the updated [TLS] with
    the error.  Each data key is assigned before its [ok] is tested. *)
Definition fillTLSFromSecret (tls : TLS) (secret : Secret) (cluster : string)
    (cert : Cert) : TLS * option Error :=
  let l := go_index (Labels secret) clusterLabel in
  if negb (String.eqb cluster l) then
    (tls, Some (Maskf invalidSecretError "expected cluster = %q, got %q" [cluster; l]))
  else
  let l := go_index (Labels secret) certificateLabel in
  if negb (String.eqb cert l) then
    (tls, Some (Maskf invalidSecretError "expected certificate = %q, got %q" [cert; l]))
  else
  let '(ca, ok) := go_index_ok (Data secret) "ca" in
  let tls := set_CA tls ca in
  if negb ok then (tls, Some (Maskf invalidSecretError "%q key missing" ["ca"])) else
  let '(crt, ok) := go_index_ok (Data secret) "crt" in
  let tls := set_Crt tls crt in
  if negb ok then (tls, Some (Maskf invalidSecretError "%q key missing" ["crt"])) else
  let '(key, ok) := go_index_ok (Data secret) "key" in
  let tls := set_Key tls key in
  if negb ok then (tls, Some (Maskf invalidSecretError "%q key missing" ["key"])) else
  (tls, None).

(** The label selector [search] builds:
    [fmt.Sprintf("%s=%s, %s=%s", certificateLabel, cert, clusterLabel, clusterID)]. *)
Definition search_options (clusterID : string) (cert : Cert) : ListOptions :=
  {| LabelSelector :=
       certificateLabel ++ "=" ++ cert ++ ", " ++ clusterLabel ++ "=" ++ clusterID |}.

Section Search.

Context {Client Logger : Type} `{SecretsWatcher Client}.

(** [s.search(ctx, tls, clusterID, cert)]; [tls] is not used by the Go
    code either.  [watcher.Stop()] is deferred and has no result. *)
Definition search (sel : nat -> bool) (s : Searcher Client Logger) (tls : TLS)
    (clusterID : string) (cert : Cert) : Secret + Error :=
  let o := search_options clusterID cert in
  match Watch (k8sClient s) SecretNamespace o with
  | inr err => inr (Mask err)
  | inl stream => watch_loop sel (watchTimeout s) 0 (LabelSelector o) stream
  end.

(** [s.SearchTLS(ctx, clusterID, cert)]: Go returns the pair
    [(TLS, error)]. *)
Definition SearchTLS (sel : nat -> bool) (s : Searcher Client Logger)
    (clusterID : string) (cert : Cert) : TLS * option Error :=
  let tls := TLS_zero in
  match search sel s tls clusterID cert with
  | inr err => (TLS_zero, Some (Mask err))
  | inl secret =>
    match fillTLSFromSecret tls secret clusterID cert with
    | (_, Some err) => (TLS_zero, Some (Mask err))
    | (tls', None) => (tls', None)
    end
  end.

End Search.

(* ================================================================== *)
(** ** searcher.go: the bundle searches *)

Section Bundle.

Context {Client Logger : Type} `{SecretsWatcher Client} {B : Type}.

(** One entry of the [certificates] slice: the [TLS] field of the bundle
    that [c.TLS] points to, read and written through [mget]/[mset], and
    the certificate to search. *)
Record Member := { mget : B -> TLS; mset : B -> TLS -> B; mcert : Cert }.

(** The closure passed to [g.Go] for one member: [search], then, under the
    mutex, [fillTLSFromSecret] on the member's field of the shared bundle. *)
Definition run_task (sel : nat -> bool) (s : Searcher Client Logger)
    (clusterID : string) (m : Member) (b : B) : B * option Error :=
  match search sel s (mget m b) clusterID (mcert m) with
  | inr err => (b, Some (Mask err))
  | inl secret =>
    let '(t, e) := fillTLSFromSecret (mget m b) secret clusterID (mcert m) in
    (mset m b t, option_map Mask e)
  end.

(** [errgroup.Group]: the tasks, each with its own [select] oracle, in the
    order they return; the group keeps the first error returned
    ([errOnce]).  Tasks write distinct fields under the mutex, so running
    them one after the other in that order gives the shared bundle its
    final value. *)
Fixpoint run_group (s : Searcher Client Logger) (clusterID : string)
    (tasks : list (Member * (nat -> bool))) (b : B) (first : option Error)
    : B * option Error :=
  match tasks with
  | [] => (b, first)
  | (m, sel) :: rest =>
    let '(b', e) := run_task sel s clusterID m b in
    run_group s clusterID rest b'
      (match first with Some _ => first | None => e end)
  end.

(** [err := g.Wait(); if err != nil { return Zero{}, Mask(err) }; return b, nil]. *)
Definition search_bundle (s : Searcher Client Logger) (clusterID : string)
    (zero : B) (tasks : list (Member * (nat -> bool))) : B * option Error :=
  match run_group s clusterID tasks zero None with
  | (_, Some err) => (zero, Some (Mask err))
  | (b, None) => (b, None)
  end.

End Bundle.

Arguments Member : clear implicits.

Module AppOperator.
Record AppOperator := mk { APIServer : TLS }.
Definition zero : AppOperator := mk TLS_zero.
End AppOperator.

Module ClusterOperator.
Record ClusterOperator := mk { APIServer : TLS }.
Definition zero : ClusterOperator := mk TLS_zero.
End ClusterOperator.

Module Draining.
Record Draining := mk { NodeOperator : TLS }.
Definition zero : Draining := mk TLS_zero.
End Draining.

Module Monitoring.
Record Monitoring := mk { Prometheus : TLS }.
Definition zero : Monitoring := mk TLS_zero.
End Monitoring.

Section Bundles.

Context {Client Logger : Type} `{SecretsWatcher Client}.

(** Each bundle method has a one-entry [certificates] slice, hence one
    task, whose [select] choices are [sel]. *)
Definition SearchAppOperator (sel : nat -> bool) (s : Searcher Client Logger)
    (clusterID : string) : AppOperator.AppOperator * option Error :=
  search_bundle s clusterID AppOperator.zero
    [({| mget := AppOperator.APIServer; mset := fun _ t => AppOperator.mk t;
         mcert := AppOperatorAPICert |}, sel)].

Definition SearchClusterOperator (sel : nat -> bool) (s : Searcher Client Logger)
    (clusterID : string) : ClusterOperator.ClusterOperator * option Error :=
  search_bundle s clusterID ClusterOperator.zero
    [({| mget := ClusterOperator.APIServer; mset := fun _ t => ClusterOperator.mk t;
         mcert := ClusterOperatorAPICert |}, sel)].

Definition SearchDraining (sel : nat -> bool) (s : Searcher Client Logger)
    (clusterID : string) : Draining.Draining * option Error :=
  search_bundle s clusterID Draining.zero
    [({| mget := Draining.NodeOperator; mset := fun _ t => Draining.mk t;
         mcert := NodeOperatorCert |}, sel)].

Definition SearchMonitoring (sel : nat -> bool) (s : Searcher Client Logger)
    (clusterID : string) : Monitoring.Monitoring * option Error :=
  search_bundle s clusterID Monitoring.zero
    [({| mget := Monitoring.Prometheus; mset := fun _ t => Monitoring.mk t;
         mcert := PrometheusCert |}, sel)].

End Bundles.

(* ================================================================== *)
(** ** The store's label-selector syntax *)


Fixpoint has_char (c : ascii) (s : string) : bool :=
  match s with
  | EmptyString => false
  | String a rest => Ascii.eqb a c || has_char c rest
  end.

(** The pieces of [s] between occurrences of [c]. *)
Fixpoint split_on (c : ascii) (s : string) : list string :=
  match s with
  | EmptyString => [EmptyString]
  | String a rest =>
    if Ascii.eqb a c then EmptyString :: split_on c rest
    else match split_on c rest with
         | [] => [String a EmptyString]
         | x :: xs => String a x :: xs
         end
  end.

Fixpoint remove_spaces (s : string) : string :=
  match s with
  | EmptyString => EmptyString
  | String a rest =>
    if Ascii.eqb a " "%char then remove_spaces rest else String a (remove_spaces rest)
  end.

Definition parse_clause (s : string) : option (string * string) :=
  match split_on "="%char s with
  | [k; v] => Some (k, v)
  | _ => None
  end.

(** Modelled from the spec: the secret store's label-selector syntax
    (section 6), an external collaborator whose parser is not in this
    repository.  A selector is a comma-separated list of [key=value]
    equality clauses; blanks between tokens are skipped, as the store's
    selector lexer does.  The result lists the required [(key, value)]
    pairs, or [None] for a selector outside this syntax. *)
Definition parse_selector (sel : string) : option (list (string * string)) :=
  mapM parse_clause (split_on ","%char (remove_spaces sel)).

(** A label key or value that the selector syntax carries verbatim. *)
Definition selector_safe (s : string) : bool :=
  negb (has_char ","%char s || has_char "="%char s || has_char " "%char s).

(** The selector a label map satisfies. *)
Definition selector_matches (clauses : list (string * string))
    (labels : gmap string string) : bool :=
  forallb (fun '(k, v) => bool_decide (labels !! k = Some v)) clauses.

(** Events that [search] passes over: the switch has no case for
    [Modified] and [Bookmark], and ignores [Deleted]. *)
Definition ignored_item (it : Item) : bool :=
  match it with
  | Ev ev => match EType ev with Deleted | Modified | Bookmark => true | _ => false end
  | Closed => false
  end.

(** A store that serves one fixed watch result to every request. *)
Record FixedStore := { served : WatchStream + Error }.

#[export] Instance FixedStore_watcher : SecretsWatcher FixedStore :=
  fun st _ _ => served st.

(** Sample inputs: a searcher with the default timeout over a fixed
    stream, and secrets labelled by the catalog with some of the data
    keys. *)
Definition searcher_serving (stream : WatchStream) : Searcher FixedStore unit :=
  {| k8sClient := {| served := inl stream |}; logger := tt;
     watchTimeout := DefaultWatchTimeout |}.

Definition bytes (s : string) : list Byte.byte :=
  map Ascii.byte_of_ascii (list_ascii_of_string s).

Definition sample_data (keys : list string) : gmap string (list Byte.byte) :=
  list_to_map (map (fun k => (k, bytes (k ++ "=="))) keys).

Definition sample_secret (clusterID : string) (cert : Cert) (keys : list string) : Secret :=
  {| Labels := K8sSecretLabels clusterID cert; Data := sample_data keys |}.

Definition event_of (t : EventType) (secret : Secret) : Item :=
  Ev {| EType := t; Obj := OSecret secret |}.

(** A two-certificate bundle, for the group properties, and a store
    serving an API-certificate secret. *)
Definition pair_searcher : Searcher FixedStore unit :=
  searcher_serving
    [(Second, event_of Added (sample_secret "c-abc12" APICert ["ca"; "crt"; "key"]))].

Definition pair_members : list (Member (TLS * TLS) * (nat -> bool)) :=
  [({| mget := fst; mset := fun b t => (t, snd b); mcert := APICert |}, fun _ => false);
   ({| mget := snd; mset := fun b t => (fst b, t); mcert := EtcdCert |}, fun _ => false)].

(* ================================================================== *)
(** * Properties *)

(** ** Label catalog *)

(** C8: [K8sSecretName] and [K8sSecretLabels] are functions of their
    arguments; the name is ["<clusterID>-<cert>"] and the label map binds
    the certificate label of both schemes to the cert's string and the
    cluster-ID label of both schemes to [clusterID]. *)
Theorem K8sSecretName_Labels_spec (clusterID : string) (cert : Cert) :
  K8sSecretName clusterID cert = clusterID ++ "-" ++ cert /\
  K8sSecretLabels clusterID cert !! certificateLabel = Some cert /\
  K8sSecretLabels clusterID cert !! legacyCertificateLabel = Some cert /\
  K8sSecretLabels clusterID cert !! clusterIDLabel = Some clusterID /\
  K8sSecretLabels clusterID cert !! legacyClusterIDLabel = Some clusterID /\
  (forall clusterID' cert', clusterID' = clusterID -> cert' = cert ->
     K8sSecretName clusterID' cert' = K8sSecretName clusterID cert /\
     K8sSecretLabels clusterID' cert' = K8sSecretLabels clusterID cert).
Proof.
  unfold K8sSecretLabels.
  repeat split; try reflexivity; intros; subst; reflexivity.
Qed.

(** ** Constructor *)

(** C9: [NewSearcher] fails with [invalidConfigError] when the client or
    the logger is nil and otherwise returns a [Searcher] holding them,
    with the watch timeout [3 * time.Second] when the configured one is
    zero and the configured one otherwise. *)
Theorem NewSearcher_spec {Client Logger : Type} (config : Config Client Logger) :
  match cfgK8sClient config, cfgLogger config with
  | Some c, Some l =>
    NewSearcher config =
      (Some {| k8sClient := c; logger := l;
               watchTimeout := if Z.eqb (cfgWatchTimeout config) 0 then 3 * Second
                               else cfgWatchTimeout config |}, None)
  | _, _ => exists e, NewSearcher config = (None, Some e) /\ kind e = invalidConfigError
  end.
Proof.
  unfold NewSearcher.
  destruct (cfgK8sClient config) as [c|], (cfgLogger config) as [l|];
    [reflexivity | eexists; split; reflexivity ..].
Qed.

(** ** The watch loop *)

(** A prefix of ignored events, each received before its timer, is passed
    over: the loop resumes after it with the iteration count advanced. *)
Lemma watch_loop_skip (sel : nat -> bool) (d : Z) (i : nat) (selector : string)
    (pre rest : WatchStream) :
  Forall (fun '(g, it) => (g < d)%Z /\ ignored_item it = true) pre ->
  watch_loop sel d i selector (pre ++ rest)%list =
  watch_loop sel d (i + length pre) selector rest.
Proof.
  revert i. induction pre as [|[g it] pre IH]; intros i Hpre.
  - simpl. rewrite Nat.add_0_r. reflexivity.
  - inversion Hpre as [|? ? Hx Hpre']; subst.
    destruct Hx as [Hg Hit].
    simpl. unfold event_wins.
    replace (Z.ltb g d) with true by (symmetry; apply Z.ltb_lt; exact Hg).
    simpl. rewrite <- Nat.add_succ_comm.
    destruct it as [ev|]; [|discriminate].
    simpl in Hit.
    destruct (EType ev); try discriminate; apply IH; exact Hpre'.
Qed.

(** C6: a [Deleted] event received by the [select] neither returns a
    secret nor fails: the loop goes on with the rest of the stream. *)
Theorem deleted_event_continues (sel : nat -> bool) (d : Z) (i : nat)
    (selector : string) (g : Z) (ev : Event) (rest : WatchStream)
    (Hdel : EType ev = Deleted) (Hrecv : event_wins sel d i g = true) :
  watch_loop sel d i selector ((g, Ev ev) :: rest) =
  watch_loop sel d (S i) selector rest.
Proof.
  simpl. rewrite Hrecv, Hdel. reflexivity.
Qed.

(** The three ways the loop fails: a closed channel and an [Error] event,
    both received by the [select], and the timer. *)
Definition closed_channel_error (selector : string) : Error :=
  Maskf executionFailedError
    "watching secrets, selector = %q: unexpected closed channel" [selector].
Definition error_event_error (selector : string) (o : Object) : Error :=
  Maskf executionFailedError "watching secrets, selector = %q: %v"
    [selector; from_object o].
Definition timeout_error (selector : string) : Error :=
  Maskf timeoutError "waiting secrets, selector = %q" [selector].

(** C2 (as amended): timer expiry fails with [timeoutError]; a closed
    channel and an [Error] event, received by the [select], both fail with
    [executionFailedError] and differ only in the message; the timeout kind
    differs from that shared kind. *)
Theorem search_failure_kinds (sel : nat -> bool) (d : Z) (i : nat)
    (selector : string) (g : Z) (rest : WatchStream) :
  (event_wins sel d i g = true ->
     watch_loop sel d i selector ((g, Closed) :: rest) = inr (closed_channel_error selector)) /\
  (forall ev, event_wins sel d i g = true -> EType ev = ErrorEvent ->
     watch_loop sel d i selector ((g, Ev ev) :: rest) =
     inr (error_event_error selector (Obj ev))) /\
  (forall it, event_wins sel d i g = false ->
     watch_loop sel d i selector ((g, it) :: rest) = inr (timeout_error selector)) /\
  watch_loop sel d i selector [] = inr (timeout_error selector) /\
  (forall o,
     kind (closed_channel_error selector) = executionFailedError /\
     kind (error_event_error selector o) = executionFailedError /\
     kind (timeout_error selector) = timeoutError /\
     timeoutError <> executionFailedError /\
     format (closed_channel_error selector) <> format (error_event_error selector o)).
Proof.
  repeat split.
  - intros Hw. simpl. rewrite Hw. reflexivity.
  - intros ev Hw He. simpl. rewrite Hw, He. reflexivity.
  - intros it Hw. simpl. rewrite Hw. reflexivity.
  - discriminate.
  - discriminate.
Qed.

(** C1: the timer is restarted by every ignored event.  With the default
    timeout of 3 s, [n] [Deleted] events 2 s apart followed 2 s later by
    an [Added] secret make the search return that secret, which arrives
    [2 (n + 1)] s after the watch opened, past the 3 s window when
    [n >= 1]. *)
Theorem search_timer_restarts_on_deleted {Client Logger : Type} `{SecretsWatcher Client}
    (sel : nat -> bool) (s : Searcher Client Logger) (tls : TLS)
    (clusterID : string) (cert : Cert) (n : nat) (old new : Secret)
    (stream : WatchStream)
    (Hstream : stream = (repeat (2 * Second, Ev {| EType := Deleted; Obj := OSecret old |}) n
                         ++ [(2 * Second, Ev {| EType := Added; Obj := OSecret new |})])%Z%list)
    (Hw : Watch (k8sClient s) SecretNamespace (search_options clusterID cert) = inl stream)
    (Ht : watchTimeout s = DefaultWatchTimeout) :
  search sel s tls clusterID cert = inl new /\
  fold_right Z.add 0%Z (map fst stream) = (2 * Second * (Z.of_nat n + 1))%Z.
Proof.
  split.
  - unfold search. rewrite Hw, Ht, Hstream, watch_loop_skip.
    + simpl. unfold event_wins. reflexivity.
    + apply List.Forall_forall. intros x Hx.
      apply repeat_spec in Hx. subst x.
      split; [unfold DefaultWatchTimeout, Second; lia | reflexivity].
  - subst stream. clear Hw Ht. rewrite map_app, fold_right_app. simpl.
    induction n as [|n IH].
    + simpl. lia.
    + simpl repeat. simpl map. simpl fold_right. rewrite IH. lia.
Qed.

(** ** Single-kind search and validation *)

Section SingleKind.

Context {Client Logger : Type} `{SecretsWatcher Client}.

(** The secret of the first [Added] event, received after ignored events
    that each arrived before their timer, is what [search] returns. *)
Lemma search_first_added (sel : nat -> bool) (s : Searcher Client Logger)
    (tls : TLS) (clusterID : string) (cert : Cert)
    (pre rest : WatchStream) (g : Z) (secret : Secret) :
  Watch (k8sClient s) SecretNamespace (search_options clusterID cert) =
    inl (pre ++ (g, Ev {| EType := Added; Obj := OSecret secret |}) :: rest)%list ->
  Forall (fun '(g', it) => (g' < watchTimeout s)%Z /\ ignored_item it = true) pre ->
  (g < watchTimeout s)%Z ->
  search sel s tls clusterID cert = inl secret.
Proof.
  intros Hw Hpre Hg. unfold search. rewrite Hw, watch_loop_skip by exact Hpre.
  simpl. unfold event_wins.
  replace (Z.ltb g (watchTimeout s)) with true by (symmetry; apply Z.ltb_lt; exact Hg).
  reflexivity.
Qed.

(** C3: when the first decisive event is an [Added] secret whose cluster
    and certificate labels are the requested ones and whose data has
    ["ca"], ["crt"] and ["key"], [SearchTLS] succeeds with exactly those
    three values. *)
Theorem SearchTLS_returns_secret_data (sel : nat -> bool)
    (s : Searcher Client Logger) (clusterID : string) (cert : Cert)
    (pre rest : WatchStream) (g : Z) (secret : Secret)
    (ca crt key : list Byte.byte)
    (Hw : Watch (k8sClient s) SecretNamespace (search_options clusterID cert) =
          inl (pre ++ (g, Ev {| EType := Added; Obj := OSecret secret |}) :: rest)%list)
    (Hpre : Forall (fun '(g', it) => (g' < watchTimeout s)%Z /\ ignored_item it = true) pre)
    (Hg : (g < watchTimeout s)%Z)
    (Hcluster : Labels secret !! clusterLabel = Some clusterID)
    (Hcert : Labels secret !! certificateLabel = Some cert)
    (Hca : Data secret !! "ca" = Some ca)
    (Hcrt : Data secret !! "crt" = Some crt)
    (Hkey : Data secret !! "key" = Some key) :
  SearchTLS sel s clusterID cert = ({| CA := ca; Crt := crt; Key := key |}, None).
Proof.
  unfold SearchTLS.
  rewrite (search_first_added sel s TLS_zero clusterID cert pre rest g secret Hw Hpre Hg).
  unfold fillTLSFromSecret, go_index, go_index_ok.
  rewrite Hcluster. simpl. rewrite String.eqb_refl. simpl.
  rewrite Hcert. simpl. rewrite String.eqb_refl. simpl.
  rewrite Hca. simpl. rewrite Hcrt. simpl. rewrite Hkey. reflexivity.
Qed.

End SingleKind.

(** ** Validation order *)

(** The label checks of [fillTLSFromSecret] pass. *)
Lemma fill_labels_ok (tls : TLS) (secret : Secret) (cluster : string) (cert : Cert) :
  go_index (Labels secret) clusterLabel = cluster ->
  go_index (Labels secret) certificateLabel = cert ->
  fillTLSFromSecret tls secret cluster cert =
  (let '(ca, ok) := go_index_ok (Data secret) "ca" in
   let tls := set_CA tls ca in
   if negb ok then (tls, Some (Maskf invalidSecretError "%q key missing" ["ca"])) else
   let '(crt, ok) := go_index_ok (Data secret) "crt" in
   let tls := set_Crt tls crt in
   if negb ok then (tls, Some (Maskf invalidSecretError "%q key missing" ["crt"])) else
   let '(key, ok) := go_index_ok (Data secret) "key" in
   let tls := set_Key tls key in
   if negb ok then (tls, Some (Maskf invalidSecretError "%q key missing" ["key"])) else
   (tls, None)).
Proof.
  intros Hc Hk. unfold fillTLSFromSecret.
  rewrite Hc, String.eqb_refl. simpl. rewrite Hk, String.eqb_refl. reflexivity.
Qed.

Ltac data_key H := unfold go_index_ok; rewrite H; simpl.

(** C10: the checks run in the order cluster label, certificate label,
    ["ca"], ["crt"], ["key"]; the first failing one gives the error, and
    nothing after it runs: a label mismatch leaves the [TLS] untouched and
    a missing key stops the assignments at that key. *)
Theorem fillTLSFromSecret_check_order (tls : TLS) (secret : Secret)
    (cluster : string) (cert : Cert) :
  let lc := go_index (Labels secret) clusterLabel in
  let lk := go_index (Labels secret) certificateLabel in
  (lc <> cluster ->
     fillTLSFromSecret tls secret cluster cert =
     (tls, Some (Maskf invalidSecretError "expected cluster = %q, got %q" [cluster; lc]))) /\
  (lc = cluster -> lk <> cert ->
     fillTLSFromSecret tls secret cluster cert =
     (tls, Some (Maskf invalidSecretError "expected certificate = %q, got %q" [cert; lk]))) /\
  (lc = cluster -> lk = cert -> Data secret !! "ca" = None ->
     fillTLSFromSecret tls secret cluster cert =
     (set_CA tls [], Some (Maskf invalidSecretError "%q key missing" ["ca"]))) /\
  (forall ca, lc = cluster -> lk = cert -> Data secret !! "ca" = Some ca ->
     Data secret !! "crt" = None ->
     fillTLSFromSecret tls secret cluster cert =
     (set_Crt (set_CA tls ca) [], Some (Maskf invalidSecretError "%q key missing" ["crt"]))) /\
  (forall ca crt, lc = cluster -> lk = cert -> Data secret !! "ca" = Some ca ->
     Data secret !! "crt" = Some crt -> Data secret !! "key" = None ->
     fillTLSFromSecret tls secret cluster cert =
     (set_Key (set_Crt (set_CA tls ca) crt) [],
      Some (Maskf invalidSecretError "%q key missing" ["key"]))).
Proof.
  intros lc lk. repeat split.
  - intros Hc. unfold fillTLSFromSecret. fold lc.
    destruct (String.eqb_spec cluster lc); [congruence | reflexivity].
  - intros Hc Hk. unfold fillTLSFromSecret. fold lc lk.
    rewrite Hc, String.eqb_refl. simpl.
    destruct (String.eqb_spec cert lk); [congruence | reflexivity].
  - intros Hc Hk Hca. rewrite fill_labels_ok by assumption. data_key Hca. reflexivity.
  - intros ca Hc Hk Hca Hcrt. rewrite fill_labels_ok by assumption.
    data_key Hca. data_key Hcrt. reflexivity.
  - intros ca crt Hc Hk Hca Hcrt Hkey. rewrite fill_labels_ok by assumption.
    data_key Hca. data_key Hcrt. data_key Hkey. reflexivity.
Qed.

(** A secret with a label mismatch or a missing data key is rejected with
    [invalidSecretError]; with matching labels the error names an absent
    key. *)
Lemma fill_rejects (tls : TLS) (secret : Secret) (cluster : string) (cert : Cert) :
  go_index (Labels secret) clusterLabel <> cluster \/
  go_index (Labels secret) certificateLabel <> cert \/
  Data secret !! "ca" = None \/ Data secret !! "crt" = None \/
  Data secret !! "key" = None ->
  exists e, snd (fillTLSFromSecret tls secret cluster cert) = Some e /\
    kind e = invalidSecretError /\
    (go_index (Labels secret) clusterLabel = cluster ->
     go_index (Labels secret) certificateLabel = cert ->
     exists k, format e = "%q key missing" /\ args e = [k] /\
       In k ["ca"; "crt"; "key"] /\ Data secret !! k = None).
Proof.
  intros Hbad. unfold fillTLSFromSecret, go_index_ok.
  destruct (String.eqb_spec cluster (go_index (Labels secret) clusterLabel)) as [Hc|Hc];
    simpl; [| eexists; repeat split; intros; congruence].
  destruct (String.eqb_spec cert (go_index (Labels secret) certificateLabel)) as [Hk|Hk];
    simpl; [| eexists; repeat split; intros; congruence].
  destruct (Data secret !! "ca") eqn:Hca; simpl;
    [| eexists; repeat split; intros; exists "ca"; simpl; intuition].
  destruct (Data secret !! "crt") eqn:Hcrt; simpl;
    [| eexists; repeat split; intros; exists "crt"; simpl; intuition].
  destruct (Data secret !! "key") eqn:Hkey; simpl;
    [| eexists; repeat split; intros; exists "key"; simpl; intuition].
  destruct Hbad as [?|[?|[?|[?|?]]]]; congruence.
Qed.

Section Rejection.

Context {Client Logger : Type} `{SecretsWatcher Client}.

(** C4: when the first decisive event is an [Added] secret whose cluster
    label or certificate label (read as Go reads a map: absent is [""])
    differs from the request, or which lacks ["ca"], ["crt"] or ["key"],
    [SearchTLS] returns the zero [TLS] and an [invalidSecretError]; with
    matching labels that error is ["%q key missing"] for an absent key. *)
Theorem SearchTLS_rejects_invalid_secret (sel : nat -> bool)
    (s : Searcher Client Logger) (clusterID : string) (cert : Cert)
    (pre rest : WatchStream) (g : Z) (secret : Secret)
    (Hw : Watch (k8sClient s) SecretNamespace (search_options clusterID cert) =
          inl (pre ++ (g, Ev {| EType := Added; Obj := OSecret secret |}) :: rest)%list)
    (Hpre : Forall (fun '(g', it) => (g' < watchTimeout s)%Z /\ ignored_item it = true) pre)
    (Hg : (g < watchTimeout s)%Z)
    (Hbad : go_index (Labels secret) clusterLabel <> clusterID \/
            go_index (Labels secret) certificateLabel <> cert \/
            Data secret !! "ca" = None \/ Data secret !! "crt" = None \/
            Data secret !! "key" = None) :
  exists e, SearchTLS sel s clusterID cert = (TLS_zero, Some e) /\
    kind e = invalidSecretError /\
    (go_index (Labels secret) clusterLabel = clusterID ->
     go_index (Labels secret) certificateLabel = cert ->
     exists k, format e = "%q key missing" /\ args e = [k] /\
       In k ["ca"; "crt"; "key"] /\ Data secret !! k = None).
Proof.
  unfold SearchTLS.
  rewrite (search_first_added sel s TLS_zero clusterID cert pre rest g secret Hw Hpre Hg).
  destruct (fill_rejects TLS_zero secret clusterID cert Hbad) as (e & He & Hkind & Hkey).
  destruct (fillTLSFromSecret TLS_zero secret clusterID cert) as [t o].
  simpl in He. subst o. exists e. auto.
Qed.

End Rejection.

(** ** Bundle searches *)

(** A one-task bundle search is [SearchTLS] on the task's certificate,
    stored into the bundle on success and replaced by the zero bundle on
    failure, with the task's own error. *)
Lemma search_bundle_single {Client Logger B : Type} `{SecretsWatcher Client}
    (sel : nat -> bool) (s : Searcher Client Logger) (clusterID : string)
    (zero : B) (m : Member B) :
  mget m zero = TLS_zero ->
  search_bundle s clusterID zero [(m, sel)] =
  match SearchTLS sel s clusterID (mcert m) with
  | (t, None) => (mset m zero t, None)
  | (_, Some e) => (zero, Some e)
  end.
Proof.
  intros Hget. unfold search_bundle, SearchTLS. simpl. unfold run_task. rewrite Hget.
  destruct (search sel s TLS_zero clusterID (mcert m)) as [secret|err]; [|reflexivity].
  destruct (fillTLSFromSecret TLS_zero secret clusterID (mcert m)) as [t [e|]];
    reflexivity.
Qed.

(** C5: every bundle method returns its fields filled with the result of
    the member's search when it succeeds, and the zero bundle together
    with the member's own error when it fails. *)
Theorem bundle_searches_all_or_nothing {Client Logger : Type} `{SecretsWatcher Client}
    (sel : nat -> bool) (s : Searcher Client Logger) (clusterID : string) :
  SearchAppOperator sel s clusterID =
    match SearchTLS sel s clusterID AppOperatorAPICert with
    | (t, None) => (AppOperator.mk t, None)
    | (_, Some e) => (AppOperator.zero, Some e)
    end /\
  SearchClusterOperator sel s clusterID =
    match SearchTLS sel s clusterID ClusterOperatorAPICert with
    | (t, None) => (ClusterOperator.mk t, None)
    | (_, Some e) => (ClusterOperator.zero, Some e)
    end /\
  SearchDraining sel s clusterID =
    match SearchTLS sel s clusterID NodeOperatorCert with
    | (t, None) => (Draining.mk t, None)
    | (_, Some e) => (Draining.zero, Some e)
    end /\
  SearchMonitoring sel s clusterID =
    match SearchTLS sel s clusterID PrometheusCert with
    | (t, None) => (Monitoring.mk t, None)
    | (_, Some e) => (Monitoring.zero, Some e)
    end.
Proof.
  repeat split; apply search_bundle_single; reflexivity.
Qed.

(** ** The label selector *)

Lemma has_char_app (c : ascii) (a b : string) :
  has_char c (a ++ b) = has_char c a || has_char c b.
Proof.
  induction a as [|x a IH]; simpl; [reflexivity|].
  rewrite IH, orb_assoc. reflexivity.
Qed.

Lemma remove_spaces_app (a b : string) :
  remove_spaces (a ++ b) = (remove_spaces a ++ remove_spaces b)%string.
Proof.
  induction a as [|x a IH]; simpl; [reflexivity|].
  destruct (Ascii.eqb x " "%char); simpl; rewrite IH; reflexivity.
Qed.

Lemma remove_spaces_id (s : string) :
  has_char " "%char s = false -> remove_spaces s = s.
Proof.
  induction s as [|x s IH]; simpl; [reflexivity|].
  intros Hs. apply orb_false_iff in Hs as [Hx Hs].
  rewrite Hx, IH by exact Hs. reflexivity.
Qed.

Lemma split_on_none (c : ascii) (a : string) :
  has_char c a = false -> split_on c a = [a].
Proof.
  induction a as [|x a IH]; simpl; [reflexivity|].
  intros Ha. apply orb_false_iff in Ha as [Hx Ha].
  rewrite Hx, IH by exact Ha. reflexivity.
Qed.

Lemma split_on_app (c : ascii) (a b : string) :
  has_char c a = false -> split_on c (a ++ String c b) = a :: split_on c b.
Proof.
  induction a as [|x a IH]; simpl.
  - intros _. rewrite Ascii.eqb_refl. reflexivity.
  - intros Ha. apply orb_false_iff in Ha as [Hx Ha].
    rewrite Hx, IH by exact Ha. reflexivity.
Qed.

Lemma selector_safe_chars (s : string) :
  selector_safe s = true ->
  has_char ","%char s = false /\ has_char "="%char s = false /\
  has_char " "%char s = false.
Proof.
  unfold selector_safe. intros Hs. apply negb_true_iff in Hs.
  apply orb_false_iff in Hs as [Hs Hsp]. apply orb_false_iff in Hs as [Hc He].
  auto.
Qed.

Lemma string_app_assoc (a b c : string) :
  ((a ++ b) ++ c)%string = (a ++ (b ++ c))%string.
Proof.
  induction a as [|x a IH]; [reflexivity|].
  change (String x ((a ++ b) ++ c) = String x (a ++ (b ++ c)))%string.
  rewrite IH. reflexivity.
Qed.

Lemma parse_clause_eq (k v : string) :
  has_char "="%char k = false -> has_char "="%char v = false ->
  parse_clause (k ++ String "="%char v) = Some (k, v).
Proof.
  intros Hk Hv. unfold parse_clause.
  rewrite split_on_app by exact Hk. rewrite split_on_none by exact Hv.
  reflexivity.
Qed.

Section Selector.

Context {Client Logger : Type} `{SecretsWatcher Client}.

(** C7: [search] opens its watch in [SecretNamespace] with the options
    [search_options clusterID cert], whose selector is the two equality
    clauses [certificateLabel=cert] and [clusterLabel=clusterID] (the
    current-scheme labels), and which a label map satisfies exactly when
    it binds both labels to those values.  Values are taken to be valid
    selector tokens (no comma, equals sign or blank). *)
Theorem search_selector_clauses (sel : nat -> bool) (s : Searcher Client Logger)
    (tls : TLS) (clusterID : string) (cert : Cert)
    (Hcluster : selector_safe clusterID = true) (Hcert : selector_safe cert = true) :
  parse_selector (LabelSelector (search_options clusterID cert)) =
    Some [(certificateLabel, cert); (clusterIDLabel, clusterID)] /\
  search sel s tls clusterID cert =
    match Watch (k8sClient s) SecretNamespace (search_options clusterID cert) with
    | inr err => inr (Mask err)
    | inl stream =>
      watch_loop sel (watchTimeout s) 0 (LabelSelector (search_options clusterID cert)) stream
    end /\
  (forall labels : gmap string string,
     selector_matches [(certificateLabel, cert); (clusterIDLabel, clusterID)] labels = true <->
     labels !! certificateLabel = Some cert /\ labels !! clusterIDLabel = Some clusterID).
Proof.
  destruct (selector_safe_chars _ Hcluster) as (Hc1 & Hc2 & Hc3).
  destruct (selector_safe_chars _ Hcert) as (Hk1 & Hk2 & Hk3).
  split; [|split; [reflexivity|]].
  - assert (Hrm : remove_spaces (LabelSelector (search_options clusterID cert)) =
      ((certificateLabel ++ String "="%char cert) ++
       String ","%char (clusterIDLabel ++ String "="%char clusterID))%string).
    { unfold search_options, clusterLabel. simpl LabelSelector.
      rewrite !remove_spaces_app, (remove_spaces_id cert Hk3),
        (remove_spaces_id clusterID Hc3), string_app_assoc. reflexivity. }
    unfold parse_selector. rewrite Hrm.
    rewrite split_on_app by (rewrite has_char_app; simpl; exact Hk1).
    rewrite split_on_none by (rewrite has_char_app; simpl; exact Hc1).
    simpl mapM.
    rewrite !parse_clause_eq by (reflexivity || assumption).
    reflexivity.
  - intros labels. unfold selector_matches. simpl.
    rewrite andb_true_r, andb_true_iff, !bool_decide_eq_true. reflexivity.
Qed.

End Selector.

(* ================================================================== *)
(** * Witnesses and counterexamples *)

(** C1: one [Deleted] event 2 s in, the [Added] secret at 4 s: the search
    returns the secret although the 3 s window passed without one. *)
Lemma search_timer_restarts_on_deleted_witness :
  search (fun _ => false)
    (searcher_serving
       [(2 * Second, event_of Deleted (sample_secret "c-abc12" APICert []));
        (2 * Second, event_of Added (sample_secret "c-abc12" APICert ["ca"; "crt"; "key"]))]%Z)
    TLS_zero "c-abc12" APICert =
    inl (sample_secret "c-abc12" APICert ["ca"; "crt"; "key"]) /\
  fold_right Z.add 0%Z
    (map fst [(2 * Second, event_of Deleted (sample_secret "c-abc12" APICert []));
              (2 * Second, event_of Added (sample_secret "c-abc12" APICert ["ca"; "crt"; "key"]))]%Z)
  = (2 * Second * (Z.of_nat 1 + 1))%Z.
Proof.
  apply (search_timer_restarts_on_deleted (fun _ => false) _ TLS_zero "c-abc12" APICert 1
           (sample_secret "c-abc12" APICert []) (sample_secret "c-abc12" APICert ["ca"; "crt"; "key"]));
    reflexivity.
Defined.

(** C2: a closed channel and an [Error] event fail with the same kind. *)
Lemma closed_channel_and_error_event_same_kind :
  exists e1 e2,
    search (fun _ => false) (searcher_serving [(0%Z, Closed)])
      TLS_zero "c-abc12" APICert = inr e1 /\
    search (fun _ => false)
      (searcher_serving [(0%Z, Ev {| EType := ErrorEvent; Obj := OStatus "too old resource version" |})])
      TLS_zero "c-abc12" APICert = inr e2 /\
    kind e1 = kind e2 /\ kind e1 = executionFailedError.
Proof.
  do 2 eexists. split; [reflexivity|]. split; [reflexivity|]. split; reflexivity.
Qed.

Lemma search_failure_kinds_witness :
  event_wins (fun _ => false) Second 0 0 = true /\
  watch_loop (fun _ => false) Second 0 "sel" [(0%Z, Closed)] = inr (closed_channel_error "sel") /\
  watch_loop (fun _ => false) Second 0 "sel"
    [(0%Z, Ev {| EType := ErrorEvent; Obj := OStatus "gone" |})] =
    inr (error_event_error "sel" (OStatus "gone")) /\
  event_wins (fun _ => false) Second 0 Second = false /\
  watch_loop (fun _ => false) Second 0 "sel" [(Second, Closed)] = inr (timeout_error "sel").
Proof.
  destruct (search_failure_kinds (fun _ => false) Second 0 "sel" 0 []) as (H1 & H2 & _).
  destruct (search_failure_kinds (fun _ => false) Second 0 "sel" Second []) as (_ & _ & H3 & _).
  split; [reflexivity|]. split; [apply H1; reflexivity|].
  split; [apply (H2 {| EType := ErrorEvent; Obj := OStatus "gone" |}); reflexivity|].
  split; [reflexivity|]. apply H3; reflexivity.
Defined.

(** C3: the spec's example secret, after one ignored event. *)
Lemma SearchTLS_returns_secret_data_witness :
  SearchTLS (fun _ => false)
    (searcher_serving
       [(Second, event_of Modified (sample_secret "c-abc12" ClusterOperatorAPICert []));
        (Second, event_of Added
                   (sample_secret "c-abc12" ClusterOperatorAPICert ["ca"; "crt"; "key"]))])
    "c-abc12" ClusterOperatorAPICert =
  ({| CA := bytes "ca=="; Crt := bytes "crt=="; Key := bytes "key==" |}, None).
Proof.
  apply (SearchTLS_returns_secret_data _ _ _ _
           [(Second, event_of Modified (sample_secret "c-abc12" ClusterOperatorAPICert []))]
           [] Second (sample_secret "c-abc12" ClusterOperatorAPICert ["ca"; "crt"; "key"]));
    try reflexivity.
  repeat constructor.
Defined.

(** C4: a secret labelled for another cluster, with no data at all. *)
Lemma SearchTLS_rejects_invalid_secret_witness :
  go_index (Labels (sample_secret "c-other" ClusterOperatorAPICert [])) clusterLabel <> "c-abc12" /\
  exists e,
    SearchTLS (fun _ => false)
      (searcher_serving
         [(Second, event_of Added (sample_secret "c-other" ClusterOperatorAPICert []))])
      "c-abc12" ClusterOperatorAPICert = (TLS_zero, Some e) /\
    kind e = invalidSecretError /\
    (go_index (Labels (sample_secret "c-other" ClusterOperatorAPICert [])) clusterLabel = "c-abc12" ->
     go_index (Labels (sample_secret "c-other" ClusterOperatorAPICert [])) certificateLabel =
       ClusterOperatorAPICert ->
     exists k, format e = "%q key missing" /\ args e = [k] /\
       In k ["ca"; "crt"; "key"] /\
       Data (sample_secret "c-other" ClusterOperatorAPICert []) !! k = None).
Proof.
  assert (Hbad : go_index (Labels (sample_secret "c-other" ClusterOperatorAPICert []))
                   clusterLabel <> "c-abc12") by (vm_compute; discriminate).
  split; [exact Hbad|].
  apply (SearchTLS_rejects_invalid_secret _ _ _ _ [] [] Second); try reflexivity.
  - constructor.
  - left. exact Hbad.
Defined.

(** C4, missing key: the right labels but no ["crt"]. *)
Lemma SearchTLS_rejects_missing_key_example :
  SearchTLS (fun _ => false)
    (searcher_serving
       [(Second, event_of Added (sample_secret "c-abc12" PrometheusCert ["ca"; "key"]))])
    "c-abc12" PrometheusCert =
  (TLS_zero, Some (Maskf invalidSecretError "%q key missing" ["crt"])).
Proof. reflexivity. Qed.

(** C6: a [Deleted] event received before the timer is passed over. *)
Lemma deleted_event_continues_witness :
  EType {| EType := Deleted; Obj := OSecret (sample_secret "c-abc12" APICert []) |} = Deleted /\
  event_wins (fun _ => false) Second 0 0 = true /\
  watch_loop (fun _ => false) Second 0 "sel"
    [(0%Z, Ev {| EType := Deleted; Obj := OSecret (sample_secret "c-abc12" APICert []) |})] =
  watch_loop (fun _ => false) Second 1 "sel" [].
Proof.
  split; [reflexivity|]. split; [reflexivity|].
  apply deleted_event_continues; reflexivity.
Defined.

(** C7: the selector for the spec's example request. *)
Lemma search_selector_clauses_witness :
  selector_safe "c-abc12" = true /\ selector_safe ClusterOperatorAPICert = true /\
  parse_selector (LabelSelector (search_options "c-abc12" ClusterOperatorAPICert)) =
    Some [(certificateLabel, ClusterOperatorAPICert); (clusterIDLabel, "c-abc12")].
Proof.
  split; [reflexivity|]. split; [reflexivity|].
  apply (search_selector_clauses (fun _ => false) (searcher_serving []) TLS_zero);
    reflexivity.
Defined.

(** C10: one secret per check, each failing that check and every later
    one. *)
Lemma fillTLSFromSecret_check_order_witness :
  (go_index (Labels (sample_secret "c-other" APICert [])) clusterLabel <> "c-abc12" /\
   fillTLSFromSecret TLS_zero (sample_secret "c-other" APICert []) "c-abc12" EtcdCert =
   (TLS_zero, Some (Maskf invalidSecretError "expected cluster = %q, got %q"
                      ["c-abc12"; "c-other"]))) /\
  (go_index (Labels (sample_secret "c-abc12" APICert [])) certificateLabel <> EtcdCert /\
   fillTLSFromSecret TLS_zero (sample_secret "c-abc12" APICert []) "c-abc12" EtcdCert =
   (TLS_zero, Some (Maskf invalidSecretError "expected certificate = %q, got %q"
                      [EtcdCert; APICert]))) /\
  fillTLSFromSecret TLS_zero (sample_secret "c-abc12" EtcdCert []) "c-abc12" EtcdCert =
    (set_CA TLS_zero [], Some (Maskf invalidSecretError "%q key missing" ["ca"])) /\
  fillTLSFromSecret TLS_zero (sample_secret "c-abc12" EtcdCert ["ca"]) "c-abc12" EtcdCert =
    (set_Crt (set_CA TLS_zero (bytes "ca==")) [],
     Some (Maskf invalidSecretError "%q key missing" ["crt"])) /\
  fillTLSFromSecret TLS_zero (sample_secret "c-abc12" EtcdCert ["ca"; "crt"]) "c-abc12" EtcdCert =
    (set_Key (set_Crt (set_CA TLS_zero (bytes "ca==")) (bytes "crt==")) [],
     Some (Maskf invalidSecretError "%q key missing" ["key"])).
Proof.
  split; [split; [vm_compute; discriminate|]|].
  { apply (fillTLSFromSecret_check_order TLS_zero (sample_secret "c-other" APICert [])
             "c-abc12" EtcdCert). vm_compute; discriminate. }
  split; [split; [vm_compute; discriminate|]|].
  { apply (fillTLSFromSecret_check_order TLS_zero (sample_secret "c-abc12" APICert [])
             "c-abc12" EtcdCert); [reflexivity | vm_compute; discriminate]. }
  split.
  { apply (fillTLSFromSecret_check_order TLS_zero (sample_secret "c-abc12" EtcdCert [])
             "c-abc12" EtcdCert); reflexivity. }
  split.
  { apply (fillTLSFromSecret_check_order TLS_zero (sample_secret "c-abc12" EtcdCert ["ca"])
             "c-abc12" EtcdCert); reflexivity. }
  apply (fillTLSFromSecret_check_order TLS_zero (sample_secret "c-abc12" EtcdCert ["ca"; "crt"])
           "c-abc12" EtcdCert); reflexivity.
Defined.

(* ================================================================== *)
(** * Further properties of the code *)

(** ** Secret names *)

Lemma str_app_cons (x : ascii) (a b : string) :
  (String x a ++ b)%string = String x (a ++ b).
Proof. reflexivity. Qed.

Lemma str_app_nil (b : string) : (EmptyString ++ b)%string = b.
Proof. reflexivity. Qed.

(** Two strings without a dash, each followed by a dash, are split the
    same way. *)
Lemma app_dash_inj (a b x y : string) :
  has_char "-"%char a = false -> has_char "-"%char b = false ->
  (a ++ String "-"%char x)%string = (b ++ String "-"%char y)%string ->
  a = b /\ x = y.
Proof.
  revert b. induction a as [|c a IH]; intros [|c' b] Ha Hb Heq.
  - rewrite !str_app_nil in Heq. injection Heq as ->. auto.
  - rewrite str_app_nil, str_app_cons in Heq. injection Heq as Hc _.
    subst c'. simpl in Hb. rewrite ?Ascii.eqb_refl in Hb. discriminate.
  - rewrite str_app_nil, str_app_cons in Heq. injection Heq as Hc _.
    subst c. simpl in Ha. rewrite ?Ascii.eqb_refl in Ha. discriminate.
  - rewrite !str_app_cons in Heq. injection Heq as -> Heq.
    simpl in Ha, Hb. apply orb_false_iff in Ha as [_ Ha].
    apply orb_false_iff in Hb as [_ Hb].
    destruct (IH b Ha Hb Heq) as [-> ->]. auto.
Qed.

(** X1: for one cluster, different certificates get different secret
    names. *)
Theorem K8sSecretName_inj_cert (clusterID : string) (c1 c2 : Cert) :
  K8sSecretName clusterID c1 = K8sSecretName clusterID c2 -> c1 = c2.
Proof.
  unfold K8sSecretName. intros Heq.
  apply (inj (String.app clusterID)) in Heq. injection Heq. auto.
Qed.

(** X2: when cluster IDs contain no dash, the secret name determines both
    the cluster ID and the certificate. *)
Theorem K8sSecretName_inj_no_dash (id1 id2 : string) (c1 c2 : Cert)
    (H1 : has_char "-"%char id1 = false) (H2 : has_char "-"%char id2 = false)
    (Heq : K8sSecretName id1 c1 = K8sSecretName id2 c2) :
  id1 = id2 /\ c1 = c2.
Proof.
  unfold K8sSecretName in Heq. apply app_dash_inj; assumption.
Qed.

(** X3: without that condition names collide, even between certificates
    of [AllCerts]: the API certificate of cluster ["c1-cluster-operator"]
    and the cluster-operator certificate of cluster ["c1"] share a name. *)
Theorem K8sSecretName_collision :
  exists id1 id2 c1 c2,
    In c1 AllCerts /\ In c2 AllCerts /\ c1 <> c2 /\ id1 <> id2 /\
    K8sSecretName id1 c1 = K8sSecretName id2 c2.
Proof.
  exists "c1-cluster-operator", "c1", APICert, ClusterOperatorAPICert.
  split; [simpl; auto|]. split; [simpl; auto 10|].
  split; [discriminate|]. split; [discriminate|]. reflexivity.
Qed.

(** ** Catalog labels *)

(** X4: the catalog's label map has exactly the four label keys of the
    two schemes. *)
Theorem K8sSecretLabels_dom (clusterID : string) (cert : Cert) :
  dom (K8sSecretLabels clusterID cert) =
  {[certificateLabel; clusterIDLabel; legacyCertificateLabel; legacyClusterIDLabel]}.
Proof.
  unfold K8sSecretLabels. rewrite !dom_insert_L, dom_empty_L. set_solver.
Qed.

(** X5: a secret carrying the catalog's labels for a request satisfies the
    selector that [search] watches with for the same request. *)
Theorem catalog_labels_match_search_selector (clusterID : string) (cert : Cert)
    (Hcluster : selector_safe clusterID = true) (Hcert : selector_safe cert = true) :
  exists clauses,
    parse_selector (LabelSelector (search_options clusterID cert)) = Some clauses /\
    selector_matches clauses (K8sSecretLabels clusterID cert) = true.
Proof.
  destruct (selector_safe_chars _ Hcluster) as (Hc1 & Hc2 & Hc3).
  destruct (selector_safe_chars _ Hcert) as (Hk1 & Hk2 & Hk3).
  exists [(certificateLabel, cert); (clusterIDLabel, clusterID)]. split.
  - assert (Hrm : remove_spaces (LabelSelector (search_options clusterID cert)) =
      ((certificateLabel ++ String "="%char cert) ++
       String ","%char (clusterIDLabel ++ String "="%char clusterID))%string).
    { unfold search_options, clusterLabel. simpl LabelSelector.
      rewrite !remove_spaces_app, (remove_spaces_id cert Hk3),
        (remove_spaces_id clusterID Hc3), string_app_assoc. reflexivity. }
    unfold parse_selector. rewrite Hrm.
    rewrite split_on_app by (rewrite has_char_app; simpl; exact Hk1).
    rewrite split_on_none by (rewrite has_char_app; simpl; exact Hc1).
    simpl mapM. rewrite !parse_clause_eq by (reflexivity || assumption).
    reflexivity.
  - unfold selector_matches, K8sSecretLabels. simpl.
    rewrite !bool_decide_eq_true_2; [reflexivity| |].
    + rewrite lookup_insert_ne by discriminate. apply lookup_insert_eq.
    + apply lookup_insert_eq.
Qed.

(** ** Validation *)

Lemma fill_ok_inv (tls : TLS) (secret : Secret) (cluster : string) (cert : Cert)
    (t : TLS) :
  fillTLSFromSecret tls secret cluster cert = (t, None) ->
  go_index (Labels secret) clusterLabel = cluster /\
  go_index (Labels secret) certificateLabel = cert /\
  Data secret !! "ca" = Some (CA t) /\ Data secret !! "crt" = Some (Crt t) /\
  Data secret !! "key" = Some (Key t).
Proof.
  unfold fillTLSFromSecret, go_index_ok.
  destruct (String.eqb_spec cluster (go_index (Labels secret) clusterLabel)) as [Hc|Hc];
    simpl; [|discriminate].
  destruct (String.eqb_spec cert (go_index (Labels secret) certificateLabel)) as [Hk|Hk];
    simpl; [|discriminate].
  destruct (Data secret !! "ca") eqn:Hca; simpl; [|discriminate].
  destruct (Data secret !! "crt") eqn:Hcrt; simpl; [|discriminate].
  destruct (Data secret !! "key") eqn:Hkey; simpl; [|discriminate].
  intros Heq. injection Heq as <-. simpl. auto.
Qed.

Lemma fill_ok_intro (tls : TLS) (secret : Secret) (cluster : string) (cert : Cert)
    (ca crt key : list Byte.byte) :
  go_index (Labels secret) clusterLabel = cluster ->
  go_index (Labels secret) certificateLabel = cert ->
  Data secret !! "ca" = Some ca -> Data secret !! "crt" = Some crt ->
  Data secret !! "key" = Some key ->
  fillTLSFromSecret tls secret cluster cert = ({| CA := ca; Crt := crt; Key := key |}, None).
Proof.
  intros Hc Hk Hca Hcrt Hkey. rewrite fill_labels_ok by assumption.
  data_key Hca. data_key Hcrt. data_key Hkey. reflexivity.
Qed.

(** X6: [fillTLSFromSecret] succeeds exactly when both labels (as Go reads
    them) are the requested ones and the three keys are present; the
    resulting [TLS] is then made of the three data values, whatever it
    held before. *)
Theorem fillTLSFromSecret_ok_iff (tls : TLS) (secret : Secret) (cluster : string)
    (cert : Cert) (t : TLS) :
  fillTLSFromSecret tls secret cluster cert = (t, None) <->
  go_index (Labels secret) clusterLabel = cluster /\
  go_index (Labels secret) certificateLabel = cert /\
  Data secret !! "ca" = Some (CA t) /\ Data secret !! "crt" = Some (Crt t) /\
  Data secret !! "key" = Some (Key t).
Proof.
  split; [apply fill_ok_inv|].
  intros (Hc & Hk & Hca & Hcrt & Hkey).
  rewrite (fill_ok_intro tls secret cluster cert (CA t) (Crt t) (Key t)) by assumption.
  destruct t. reflexivity.
Qed.

(** X7: a secret labelled by [K8sSecretLabels] for the request and holding
    the three keys passes [fillTLSFromSecret]: the catalog and the
    searcher agree on the labels. *)
Theorem catalog_secret_passes_validation (tls : TLS) (secret : Secret)
    (clusterID : string) (cert : Cert) (ca crt key : list Byte.byte)
    (Hlabels : Labels secret = K8sSecretLabels clusterID cert)
    (Hca : Data secret !! "ca" = Some ca) (Hcrt : Data secret !! "crt" = Some crt)
    (Hkey : Data secret !! "key" = Some key) :
  fillTLSFromSecret tls secret clusterID cert =
    ({| CA := ca; Crt := crt; Key := key |}, None).
Proof.
  apply fill_ok_intro; try assumption; rewrite Hlabels; unfold go_index, K8sSecretLabels.
  - rewrite lookup_insert_ne by discriminate. rewrite lookup_insert_eq. reflexivity.
  - rewrite lookup_insert_eq. reflexivity.
Qed.

(** ** Search error paths *)

Section SearchPaths.

Context {Client Logger : Type} `{SecretsWatcher Client}.

(** X8: when opening the watch fails, [search] and [SearchTLS] fail with
    the store's error, and [SearchTLS] returns the zero [TLS]. *)
Theorem search_watch_error (sel : nat -> bool) (s : Searcher Client Logger)
    (tls : TLS) (clusterID : string) (cert : Cert) (err : Error)
    (Hw : Watch (k8sClient s) SecretNamespace (search_options clusterID cert) = inr err) :
  search sel s tls clusterID cert = inr err /\
  SearchTLS sel s clusterID cert = (TLS_zero, Some err).
Proof.
  unfold SearchTLS, search. rewrite Hw. auto.
Qed.

End SearchPaths.

(** X9: an [Added] event whose object is not a non-nil secret, received by
    the [select], fails the loop with [wrongTypeError]. *)
Theorem added_wrong_type (sel : nat -> bool) (d : Z) (i : nat) (selector : string)
    (g : Z) (o : Object) (rest : WatchStream)
    (Hrecv : event_wins sel d i g = true) (Ho : forall secret, o <> OSecret secret) :
  watch_loop sel d i selector ((g, Ev {| EType := Added; Obj := o |}) :: rest) =
  inr (Maskf wrongTypeError "expected '%T', got '%T'" ["*v1.Secret"; type_name o]).
Proof.
  simpl. rewrite Hrecv. simpl.
  destruct o as [secret| |msg]; [exfalso; exact (Ho secret eq_refl)|reflexivity|reflexivity].
Qed.

(** X10: [Modified] and [Bookmark] events, which the switch has no case
    for, are passed over like [Deleted] ones. *)
Theorem modified_bookmark_continue (sel : nat -> bool) (d : Z) (i : nat)
    (selector : string) (g : Z) (ev : Event) (rest : WatchStream)
    (Htype : EType ev = Modified \/ EType ev = Bookmark)
    (Hrecv : event_wins sel d i g = true) :
  watch_loop sel d i selector ((g, Ev ev) :: rest) =
  watch_loop sel d (S i) selector rest.
Proof.
  simpl. rewrite Hrecv. destruct Htype as [-> | ->]; reflexivity.
Qed.

(** ** What a search returns *)

(** X11: the loop returns a secret only from an [Added] event carrying
    it, reached through ignored events only, each of them and the [Added]
    event arriving within the timeout of the previous receive. *)
Theorem watch_loop_returns_added (sel : nat -> bool) (d : Z) (i : nat)
    (selector : string) (evs : WatchStream) (secret : Secret) :
  watch_loop sel d i selector evs = inl secret ->
  exists pre g rest,
    evs = (pre ++ (g, Ev {| EType := Added; Obj := OSecret secret |}) :: rest)%list /\
    Forall (fun '(g', it) => (g' <= d)%Z /\ ignored_item it = true) pre /\
    (g <= d)%Z.
Proof.
  revert i. induction evs as [|[g it] evs IH]; intros i; simpl; [discriminate|].
  destruct (event_wins sel d i g) eqn:Hw; [|discriminate].
  assert (Hg : (g <= d)%Z).
  { unfold event_wins in Hw. apply orb_true_iff in Hw as [Hw|Hw].
    - apply Z.ltb_lt in Hw. lia.
    - apply andb_true_iff in Hw as [Hw _]. apply Z.eqb_eq in Hw. lia. }
  destruct it as [[t o]|]; [|discriminate]. simpl.
  destruct t.
  - destruct o as [s'| |]; try discriminate.
    intros Heq. injection Heq as ->. exists [], g, evs. auto.
  - intros Hl. destruct (IH (S i) Hl) as (pre & g' & rest & -> & Hpre & Hg').
    exists ((g, Ev {| EType := Modified; Obj := o |}) :: pre), g', rest.
    split; [reflexivity|]. split; [constructor; [split; [exact Hg|reflexivity]|exact Hpre]|exact Hg'].
  - intros Hl. destruct (IH (S i) Hl) as (pre & g' & rest & -> & Hpre & Hg').
    exists ((g, Ev {| EType := Deleted; Obj := o |}) :: pre), g', rest.
    split; [reflexivity|]. split; [constructor; [split; [exact Hg|reflexivity]|exact Hpre]|exact Hg'].
  - intros Hl. destruct (IH (S i) Hl) as (pre & g' & rest & -> & Hpre & Hg').
    exists ((g, Ev {| EType := Bookmark; Obj := o |}) :: pre), g', rest.
    split; [reflexivity|]. split; [constructor; [split; [exact Hg|reflexivity]|exact Hpre]|exact Hg'].
  - discriminate.
Qed.

Section SearchTLSResults.

Context {Client Logger : Type} `{SecretsWatcher Client}.

(** X12: [SearchTLS] never returns a partly filled [TLS]: on every error
    path it returns the zero value. *)
Theorem SearchTLS_error_zero (sel : nat -> bool) (s : Searcher Client Logger)
    (clusterID : string) (cert : Cert) (t : TLS) (e : Error) :
  SearchTLS sel s clusterID cert = (t, Some e) -> t = TLS_zero.
Proof.
  unfold SearchTLS.
  destruct (search sel s TLS_zero clusterID cert) as [secret|err].
  - destruct (fillTLSFromSecret TLS_zero secret clusterID cert) as [t' [e'|]];
      intros Heq; injection Heq; auto; discriminate.
  - intros Heq. injection Heq. auto.
Qed.

(** X13: when [SearchTLS] succeeds, its result comes from the secret that
    [search] returned: that secret carries the requested labels and the
    three data values of the result. *)
Theorem SearchTLS_success_sound (sel : nat -> bool) (s : Searcher Client Logger)
    (clusterID : string) (cert : Cert) (t : TLS) :
  SearchTLS sel s clusterID cert = (t, None) ->
  exists secret,
    search sel s TLS_zero clusterID cert = inl secret /\
    go_index (Labels secret) clusterLabel = clusterID /\
    go_index (Labels secret) certificateLabel = cert /\
    Data secret !! "ca" = Some (CA t) /\ Data secret !! "crt" = Some (Crt t) /\
    Data secret !! "key" = Some (Key t).
Proof.
  unfold SearchTLS.
  destruct (search sel s TLS_zero clusterID cert) as [secret|err]; [|discriminate].
  destruct (fillTLSFromSecret TLS_zero secret clusterID cert) as [t' [e'|]] eqn:Hf;
    [discriminate|].
  intros Heq. injection Heq as ->. exists secret. split; [reflexivity|].
  exact (fill_ok_inv _ _ _ _ _ Hf).
Qed.

End SearchTLSResults.

(** ** Bundle searches with several tasks *)

Section Group.

Context {Client Logger B : Type} `{SecretsWatcher Client}.
Variables (s : Searcher Client Logger) (clusterID : string).

Lemma run_group_keeps_first (tasks : list (Member B * (nat -> bool))) (b b' : B)
    (e0 : Error) (o : option Error) :
  run_group s clusterID tasks b (Some e0) = (b', o) -> o = Some e0.
Proof.
  revert b. induction tasks as [|[m sel] tasks IH]; intros b; simpl.
  - intros Heq. injection Heq. auto.
  - destruct (run_task sel s clusterID m b) as [b2 e2]. apply IH.
Qed.

Lemma run_group_first_error (tasks : list (Member B * (nat -> bool))) (b b' : B)
    (e : Error) :
  run_group s clusterID tasks b None = (b', Some e) ->
  exists pre m sel post b1,
    tasks = (pre ++ (m, sel) :: post)%list /\
    run_group s clusterID pre b None = (b1, None) /\
    snd (run_task sel s clusterID m b1) = Some e.
Proof.
  revert b. induction tasks as [|[m sel] tasks IH]; intros b; simpl; [discriminate|].
  destruct (run_task sel s clusterID m b) as [b2 e2] eqn:Ht.
  destruct e2 as [e2|].
  - intros Hg. apply run_group_keeps_first in Hg. injection Hg as ->.
    exists [], m, sel, tasks, b. simpl. rewrite Ht. auto.
  - intros Hg. destruct (IH b2 Hg) as (pre & m' & sel' & post & b1 & -> & Hpre & He).
    exists ((m, sel) :: pre), m', sel', post, b1. simpl. rewrite Ht. auto.
Qed.

Lemma run_group_no_error (tasks : list (Member B * (nat -> bool))) (b b' : B) :
  run_group s clusterID tasks b None = (b', None) ->
  forall pre m sel post, tasks = (pre ++ (m, sel) :: post)%list ->
  snd (run_task sel s clusterID m (fst (run_group s clusterID pre b None))) = None.
Proof.
  intros Hg pre. revert tasks b Hg.
  induction pre as [|[m0 sel0] pre IH]; intros tasks b Hg m sel post ->; simpl in *.
  - destruct (run_task sel s clusterID m b) as [b2 [e2|]]; [|reflexivity].
    apply run_group_keeps_first in Hg. discriminate.
  - destruct (run_task sel0 s clusterID m0 b) as [b2 [e2|]] eqn:Ht.
    + apply run_group_keeps_first in Hg. discriminate.
    + exact (IH _ b2 Hg m sel post eq_refl).
Qed.

(** X14: a bundle search over any list of tasks, in the order they
    return, fails with the error of the first task that failed (every
    task before it succeeded) and then returns the zero bundle; it
    succeeds only when no task failed. *)
Theorem search_bundle_first_error (zero : B) (tasks : list (Member B * (nat -> bool)))
    (b : B) (o : option Error) :
  search_bundle s clusterID zero tasks = (b, o) ->
  match o with
  | Some e =>
    b = zero /\
    exists pre m sel post b1,
      tasks = (pre ++ (m, sel) :: post)%list /\
      run_group s clusterID pre zero None = (b1, None) /\
      snd (run_task sel s clusterID m b1) = Some e
  | None =>
    forall pre m sel post, tasks = (pre ++ (m, sel) :: post)%list ->
    snd (run_task sel s clusterID m (fst (run_group s clusterID pre zero None))) = None
  end.
Proof.
  unfold search_bundle.
  destruct (run_group s clusterID tasks zero None) as [b0 [e0|]] eqn:Hg;
    intros Heq; injection Heq as <- <-.
  - split; [reflexivity|]. exact (run_group_first_error tasks zero b0 e0 Hg).
  - exact (run_group_no_error tasks zero b0 Hg).
Qed.

End Group.

(* ================================================================== *)
(** * Witnesses of the further properties *)

Lemma K8sSecretName_inj_cert_witness :
  K8sSecretName "c-abc12" EtcdCert = K8sSecretName "c-abc12" EtcdCert /\ EtcdCert = EtcdCert.
Proof.
  split; [reflexivity|]. apply (K8sSecretName_inj_cert "c-abc12"). reflexivity.
Defined.

Lemma K8sSecretName_inj_no_dash_witness : "abc12" = "abc12" /\ WorkerCert = WorkerCert.
Proof. apply (K8sSecretName_inj_no_dash "abc12" "abc12" WorkerCert WorkerCert); reflexivity. Defined.

Lemma catalog_labels_match_search_selector_witness :
  exists clauses,
    parse_selector (LabelSelector (search_options "c-abc12" PrometheusCert)) = Some clauses /\
    selector_matches clauses (K8sSecretLabels "c-abc12" PrometheusCert) = true.
Proof. apply catalog_labels_match_search_selector; reflexivity. Defined.

Lemma catalog_secret_passes_validation_witness :
  fillTLSFromSecret TLS_zero (sample_secret "c-abc12" EtcdCert ["ca"; "crt"; "key"])
    "c-abc12" EtcdCert =
  ({| CA := bytes "ca=="; Crt := bytes "crt=="; Key := bytes "key==" |}, None).
Proof. apply catalog_secret_passes_validation; reflexivity. Defined.

Lemma search_watch_error_witness :
  search (fun _ => false)
    {| k8sClient := {| served := inr (Maskf BackendError "forbidden" []) |}; logger := tt;
       watchTimeout := DefaultWatchTimeout |} TLS_zero "c-abc12" APICert =
    inr (Maskf BackendError "forbidden" []) /\
  SearchTLS (fun _ => false)
    {| k8sClient := {| served := inr (Maskf BackendError "forbidden" []) |}; logger := tt;
       watchTimeout := DefaultWatchTimeout |} "c-abc12" APICert =
    (TLS_zero, Some (Maskf BackendError "forbidden" [])).
Proof. apply search_watch_error. reflexivity. Defined.

Lemma added_wrong_type_witness :
  watch_loop (fun _ => false) Second 0 "sel"
    [(0%Z, Ev {| EType := Added; Obj := ONilSecret |})] =
  inr (Maskf wrongTypeError "expected '%T', got '%T'" ["*v1.Secret"; "*v1.Secret"]).
Proof.
  apply (added_wrong_type _ _ _ _ _ ONilSecret []); [reflexivity|discriminate].
Defined.

Lemma modified_bookmark_continue_witness :
  watch_loop (fun _ => false) Second 0 "sel"
    [(0%Z, Ev {| EType := Bookmark; Obj := OStatus "" |})] =
  watch_loop (fun _ => false) Second 1 "sel" [].
Proof. apply modified_bookmark_continue; [right|]; reflexivity. Defined.

Lemma watch_loop_returns_added_witness :
  exists pre g rest,
    [(Second, event_of Deleted (sample_secret "c-abc12" APICert []));
     (Second, event_of Added (sample_secret "c-abc12" APICert ["ca"]))] =
    (pre ++ (g, Ev {| EType := Added; Obj := OSecret (sample_secret "c-abc12" APICert ["ca"]) |})
            :: rest)%list /\
    Forall (fun '(g', it) => (g' <= DefaultWatchTimeout)%Z /\ ignored_item it = true) pre /\
    (g <= DefaultWatchTimeout)%Z.
Proof. apply (watch_loop_returns_added (fun _ => false) DefaultWatchTimeout 0 "sel"). reflexivity. Defined.

Lemma SearchTLS_error_zero_witness :
  SearchTLS (fun _ => false) (searcher_serving [(0%Z, Closed)]) "c-abc12" APICert =
    (TLS_zero, Some (closed_channel_error (LabelSelector (search_options "c-abc12" APICert)))) /\
  TLS_zero = TLS_zero.
Proof.
  split; [reflexivity|].
  apply (SearchTLS_error_zero (fun _ => false) (searcher_serving [(0%Z, Closed)]) "c-abc12" APICert
           TLS_zero (closed_channel_error (LabelSelector (search_options "c-abc12" APICert)))).
  reflexivity.
Defined.

Lemma SearchTLS_success_sound_witness :
  exists secret,
    search (fun _ => false)
      (searcher_serving [(Second, event_of Added (sample_secret "c-abc12" APICert ["ca"; "crt"; "key"]))])
      TLS_zero "c-abc12" APICert = inl secret /\
    go_index (Labels secret) clusterLabel = "c-abc12" /\
    go_index (Labels secret) certificateLabel = APICert /\
    Data secret !! "ca" = Some (bytes "ca==") /\ Data secret !! "crt" = Some (bytes "crt==") /\
    Data secret !! "key" = Some (bytes "key==").
Proof.
  apply (SearchTLS_success_sound (fun _ => false)
           (searcher_serving [(Second, event_of Added (sample_secret "c-abc12" APICert ["ca"; "crt"; "key"]))])
           "c-abc12" APICert {| CA := bytes "ca=="; Crt := bytes "crt=="; Key := bytes "key==" |}).
  reflexivity.
Defined.

(** Both tasks receive an API-certificate secret: the first succeeds, the
    second fails on the certificate label, and the bundle is the zero
    pair with the second task's error. *)
Lemma search_bundle_first_error_witness :
  search_bundle pair_searcher "c-abc12" (TLS_zero, TLS_zero) pair_members =
    ((TLS_zero, TLS_zero),
     Some (Maskf invalidSecretError "expected certificate = %q, got %q" [EtcdCert; APICert])) /\
  (TLS_zero, TLS_zero) = (TLS_zero, TLS_zero) /\
  exists pre m sel post b1,
    pair_members = (pre ++ (m, sel) :: post)%list /\
    run_group pair_searcher "c-abc12" pre (TLS_zero, TLS_zero) None = (b1, None) /\
    snd (run_task sel pair_searcher "c-abc12" m b1) =
      Some (Maskf invalidSecretError "expected certificate = %q, got %q" [EtcdCert; APICert]).
Proof.
  assert (Hb : search_bundle pair_searcher "c-abc12" (TLS_zero, TLS_zero) pair_members =
    ((TLS_zero, TLS_zero),
     Some (Maskf invalidSecretError "expected certificate = %q, got %q" [EtcdCert; APICert])))
    by reflexivity.
  split; [exact Hb|].
  exact (search_bundle_first_error pair_searcher "c-abc12" (TLS_zero, TLS_zero) pair_members _ _ Hb).
Defined.
